(** * core-entity: the permission predicates of [src/lib/permissions.ts]

    A shallow embedding of the pure permission utilities, of the retry
    constants of [src/lib/constants.ts] and of the code validator of
    [src/schemas/permission.ts], followed by the properties the
    specification states about them.  The retry wrapper that uses the
    constants is not among the sources and is modelled from the
    specification.

    Conventions of the embedding.
    - A JavaScript string is a [string] of the Standard Library: a finite
      sequence of 8-bit characters.  The code units above 255 are outside the
      model; among the line terminators of ECMAScript only LF and CR are
      therefore representable.
    - A [string[]] is a [list string]; [Array.prototype.includes] compares with
      SameValueZero, which on strings is equality of the character sequences.
    - A [number] used as a role level is an integer, a [Z].
    - [parsePermission] returns an object or [null]: an [option], [None]
      being [null].  [hasPermissionPattern] returns a boolean or throws what
      the RegExp constructor throws: an [option bool], [None] being the
      exception. *)

From Stdlib Require Import Bool List Ascii String ZArith Lia.
Import ListNotations.

Local Open Scope list_scope.
Local Open Scope string_scope.

Set Implicit Arguments.

(** ** The JavaScript built-ins the module calls *)

Module JS.

(** [arr.includes(x)] on an array of strings. *)
Definition includes (arr : list string) (x : string) : bool :=
  existsb (String.eqb x) arr.

(** [arr.some(f)] and [arr.every(f)]. *)
Definition some (A : Type) (arr : list A) (f : A -> bool) : bool := existsb f arr.
Definition every (A : Type) (arr : list A) (f : A -> bool) : bool := forallb f arr.

(** [arr.filter(f)]. *)
Definition filter (A : Type) (arr : list A) (f : A -> bool) : list A :=
  List.filter f arr.

(** [s.includes(c)] for a one-character needle. *)
Fixpoint includes_char (c : ascii) (s : string) : bool :=
  match s with
  | EmptyString => false
  | String d s' => if Ascii.eqb d c then true else includes_char c s'
  end.

(** [s.startsWith(p)]. *)
Fixpoint startsWith (s p : string) {struct p} : bool :=
  match p with
  | EmptyString => true
  | String c p' =>
      match s with
      | EmptyString => false
      | String d s' => Ascii.eqb d c && startsWith s' p'
      end
  end.

(** [s.split(sep)] for a one-character separator: the segments between the
    occurrences of [sep], in order.  The result is never empty: a string
    without separator is returned whole, [""] included. *)
Fixpoint split (sep : ascii) (s : string) : list string :=
  match s with
  | EmptyString => [EmptyString]
  | String c s' =>
      if Ascii.eqb c sep then EmptyString :: split sep s'
      else match split sep s' with
           | [] => [String c EmptyString]
           | seg :: segs => String c seg :: segs
           end
  end.

(** [s.replace(/\*/g, '.*')]: every occurrence of the star is replaced, the
    replacement text holds no [$] and is inserted as it is. *)
Fixpoint replace_star (s : string) : string :=
  match s with
  | EmptyString => EmptyString
  | String c s' =>
      if Ascii.eqb c "*" then String "." (String "*" (replace_star s'))
      else String c (replace_star s')
  end.

End JS.

(** ** Regular expressions

    What [hasPermissionPattern] needs of a regular-expression engine: the
    constructor [new RegExp(source)], which throws a SyntaxError on a source
    that is not a pattern, and [regex.test(s)].  The regex is built without
    flags, so [test] keeps no state between calls. *)

Record RegExpEngine : Type := {
  regexp : Type;
  RegExp_new : string -> option regexp;
  RegExp_test : regexp -> string -> bool
}.

(** *** The engine of the language, on a fragment of its pattern grammar

    The fragment: a pattern is a disjunction of alternatives separated by
    [|]; an alternative is a sequence of terms; a term is one of the
    assertions [^] and [$], or an atom, optionally followed by one of the
    quantifiers [*], [+] and [?], greedy or, with a further [?], lazy; an
    atom is [.] or a character that is no SyntaxCharacter.  The regex is only
    asked whether it matches, and a lazy quantifier tries the same
    repetitions as the greedy one in the opposite order: both are the same
    term here.

    On a quantifier with nothing to repeat (at the start of an alternative,
    after an assertion or after another quantifier) the language throws a
    SyntaxError and [parse] answers [None].  [parse] also answers [None] on
    the sources outside the fragment (escapes, classes, groups, braces), among
    which are sources the language accepts: about those the model says
    nothing. *)

Module ECMAScript.

Inductive atom : Type :=
| PatternCharacter (c : ascii)
| Dot.

Inductive term : Type :=
| AssertStart
| AssertEnd
| Atom (a : atom)
| AtomStar (a : atom)
| AtomPlus (a : atom)
| AtomOptional (a : atom).

Definition isSyntaxCharacter (c : ascii) : bool :=
  JS.includes_char c "^$\.*+?()[]{}|".

(** The characters [.] does not match when the flag [s] is absent. *)
Definition isLineTerminator (c : ascii) : bool :=
  Ascii.eqb c "010" || Ascii.eqb c "013".

Definition parse_atom (c : ascii) : option atom :=
  if Ascii.eqb c "." then Some Dot
  else if isSyntaxCharacter c then None
  else Some (PatternCharacter c).

Definition parse_quantifier (q : ascii) : option (atom -> term) :=
  if Ascii.eqb q "*" then Some AtomStar
  else if Ascii.eqb q "+" then Some AtomPlus
  else if Ascii.eqb q "?" then Some AtomOptional
  else None.

(** A term read in front of what the rest of the source parses to: it opens
    the first alternative. *)
Definition add_term (t : term) (alternatives : list (list term)) : list (list term) :=
  match alternatives with
  | [] => [[t]]
  | alternative :: others => (t :: alternative) :: others
  end.

Fixpoint parse (src : string) : option (list (list term)) :=
  match src with
  | EmptyString => Some [[]]
  | String c rest =>
      if Ascii.eqb c "|" then option_map (cons []) (parse rest)
      else if Ascii.eqb c "^" then option_map (add_term AssertStart) (parse rest)
      else if Ascii.eqb c "$" then option_map (add_term AssertEnd) (parse rest)
      else
        match parse_atom c with
        | None => None
        | Some a =>
            match rest with
            | String q rest' =>
                match parse_quantifier q with
                | Some quantified =>
                    match rest' with
                    | String mark rest'' =>
                        if Ascii.eqb mark "?"
                        then option_map (add_term (quantified a)) (parse rest'')
                        else option_map (add_term (quantified a)) (parse rest')
                    | EmptyString =>
                        option_map (add_term (quantified a)) (parse rest')
                    end
                | None => option_map (add_term (Atom a)) (parse rest)
                end
            | EmptyString => option_map (add_term (Atom a)) (parse rest)
            end
        end
  end.

Definition atom_matches (a : atom) (c : ascii) : bool :=
  match a with
  | PatternCharacter d => Ascii.eqb c d
  | Dot => negb (isLineTerminator c)
  end.

Definition at_end (s : string) : bool :=
  match s with
  | EmptyString => true
  | String _ _ => false
  end.

(** The greedy star over one atom, [k] being the matcher of what follows:
    one more repetition is tried first, the continuation at the current
    position when that fails. *)
Fixpoint repeat_star (a : atom) (k : bool -> string -> bool)
                     (at_start : bool) (s : string) : bool :=
  match s with
  | EmptyString => k at_start s
  | String c s' =>
      (atom_matches a c && repeat_star a k false s') || k at_start s
  end.

(** [matches ts at_start s]: the terms [ts] match some prefix of [s], the
    rest of the input from the current position; [at_start] tells whether
    that position is index 0.  The backtracking matcher of the language,
    reduced to its answer: the star tries the longest repetition first and
    gives characters back until what follows it matches. *)
Fixpoint matches (ts : list term) (at_start : bool) (s : string) : bool :=
  match ts with
  | [] => true
  | AssertStart :: ts' => at_start && matches ts' at_start s
  | AssertEnd :: ts' => at_end s && matches ts' at_start s
  | Atom a :: ts' =>
      match s with
      | EmptyString => false
      | String c s' => atom_matches a c && matches ts' false s'
      end
  | AtomStar a :: ts' => repeat_star a (matches ts') at_start s
  | AtomPlus a :: ts' =>
      match s with
      | EmptyString => false
      | String c s' => atom_matches a c && repeat_star a (matches ts') false s'
      end
  | AtomOptional a :: ts' =>
      match s with
      | EmptyString => false
      | String c s' => atom_matches a c && matches ts' false s'
      end
      || matches ts' at_start s
  end.

(** A disjunction matches where one of its alternatives does. *)
Definition matches_any (alternatives : list (list term))
                       (at_start : bool) (s : string) : bool :=
  existsb (fun ts => matches ts at_start s) alternatives.

(** [regex.test(s)] without the flags [g] and [y]: the match is attempted at
    index 0, then at every later index up to the length of [s]. *)
Fixpoint search (alternatives : list (list term))
                (at_start : bool) (s : string) : bool :=
  matches_any alternatives at_start s ||
  match s with
  | EmptyString => false
  | String _ s' => search alternatives false s'
  end.

Definition test (alternatives : list (list term)) (s : string) : bool :=
  search alternatives true s.

Definition engine : RegExpEngine :=
  {| regexp := list (list term); RegExp_new := parse; RegExp_test := test |}.

End ECMAScript.

(** ** src/lib/permissions.ts *)

Definition hasPermission (userPermissions : list string)
                         (requiredPermission : string) : bool :=
  JS.includes userPermissions requiredPermission.

Definition hasAnyPermission (userPermissions requiredPermissions : list string) : bool :=
  JS.some requiredPermissions (fun permission => JS.includes userPermissions permission).

Definition hasAllPermissions (userPermissions requiredPermissions : list string) : bool :=
  JS.every requiredPermissions (fun permission => JS.includes userPermissions permission).

Definition hasPermissionPattern (E : RegExpEngine)
    (userPermissions : list string) (pattern : string) : option bool :=
  if JS.includes_char "*" pattern then
    let regexPattern := JS.replace_star pattern in
    match RegExp_new E ("^" ++ regexPattern ++ "$") with
    | None => None
    | Some regex =>
        Some (JS.some userPermissions (fun permission => RegExp_test E regex permission))
    end
  else Some (JS.includes userPermissions pattern).

Definition hasRoleLevel (userLevel requiredLevel : Z) : bool :=
  (userLevel >=? requiredLevel)%Z.

Definition getPermissionsByCategory (userPermissions : list string)
                                    (category : string) : list string :=
  JS.filter userPermissions
    (fun permission => JS.startsWith permission (category ++ ":")).

Record ParsedPermission : Type := { resource : string; action : string }.

Definition parsePermission (permissionCode : string) : option ParsedPermission :=
  let parts := JS.split ":" permissionCode in
  if negb (Nat.eqb (List.length parts) 2) then None
  else Some {| resource := nth 0 parts EmptyString;
               action := nth 1 parts EmptyString |}.

(** ** src/lib/constants.ts *)

Definition MAX_AUTH_RETRIES : Z := 3.
Definition AUTH_RETRY_BASE_DELAY_MS : Z := 1000.

(** ** src/lib/authRetry.ts

    The module that exports [withRetry] and [createRetryWrapper] is not among
    the sources; only its export and the two constants above are.  The retry
    wrapper below follows the RetryController of the specification. *)

Module AuthRetry.

(** Modelled from the spec: how one invocation of the wrapped asynchronous
    operation settles, a type [src/lib/authRetry.ts] leaves to the promise. *)
Inductive outcome (A Err : Type) : Type :=
| Resolved (value : A)
| Rejected (error : Err).

Arguments Resolved {A Err} value.
Arguments Rejected {A Err} error.

(** Modelled from the spec: the configuration of the retry wrapper, which
    [src/lib/authRetry.ts] would declare: the total number of attempts, the
    first one included, the base delay, the multiplier of the backoff and
    the classification of the failures that are retried. *)
Record RetryConfig (Err : Type) : Type := {
  maxAttempts : Z;
  baseDelay : Z;
  multiplier : Z;
  isRetryable : Err -> bool
}.

(** Modelled from the spec: what the caller and the clock see of one call of
    the wrapper of [src/lib/authRetry.ts]: how it settles, how many times the
    operation was invoked and the delays waited between the invocations. *)
Record RetryRun (A Err : Type) : Type := {
  settled : outcome A Err;
  invocations : nat;
  waits : list Z
}.

(** Modelled from the spec: the loop of [withRetry], missing from the
    sources.  [operation k] is how the invocation of index [k] settles.  The
    operation is executed; a success is returned; a failure that is not
    retryable is surfaced at once; a retryable failure is surfaced unchanged
    when no attempt is left, and otherwise followed by a wait of
    [baseDelay * multiplier ^ attemptIndex] and the next invocation. *)
Fixpoint attempt (A Err : Type) (config : RetryConfig Err)
                 (operation : nat -> outcome A Err)
                 (attemptsLeft : nat) (attemptIndex : nat) : RetryRun A Err :=
  match operation attemptIndex with
  | Resolved value =>
      {| settled := Resolved value; invocations := S attemptIndex; waits := [] |}
  | Rejected error =>
      if isRetryable config error then
        match attemptsLeft with
        | O =>
            {| settled := Rejected error; invocations := S attemptIndex;
               waits := [] |}
        | S attemptsLeft' =>
            let later := attempt config operation attemptsLeft' (S attemptIndex) in
            {| settled := settled later;
               invocations := invocations later;
               waits := (baseDelay config * multiplier config ^ Z.of_nat attemptIndex)%Z
                        :: waits later |}
        end
      else
        {| settled := Rejected error; invocations := S attemptIndex; waits := [] |}
  end.

(** Modelled from the spec: [withRetry], missing from the sources: at most
    [maxAttempts] attempts in total, the first one included, the attempt
    index starting at 0. *)
Definition withRetry (A Err : Type) (config : RetryConfig Err)
                     (operation : nat -> outcome A Err) : RetryRun A Err :=
  attempt config operation (Z.to_nat (maxAttempts config) - 1) 0.

(** Modelled from the spec: the default configuration of the authentication
    calls, which [src/lib/authRetry.ts] would build: the two constants of
    [src/lib/constants.ts] as number of attempts and base delay. *)
Definition defaultConfig (Err : Type) (multiplier : Z)
                         (isRetryable : Err -> bool) : RetryConfig Err :=
  {| maxAttempts := MAX_AUTH_RETRIES;
     baseDelay := AUTH_RETRY_BASE_DELAY_MS;
     multiplier := multiplier;
     isRetryable := isRetryable |}.

End AuthRetry.

(** ** What the specification speaks of *)

(** The number of occurrences of a character in a string. *)
Fixpoint count_char (c : ascii) (s : string) : nat :=
  match s with
  | EmptyString => 0
  | String d s' => (if Ascii.eqb d c then 1 else 0) + count_char c s'
  end.

(** The canonical shape of a permission code in the words of the data model:
    exactly two non-empty segments around a single colon. *)
Definition two_nonempty_segments (code : string) : Prop :=
  exists r a : string,
    code = r ++ ":" ++ a /\ r <> "" /\ a <> "" /\
    count_char ":" r = 0 /\ count_char ":" a = 0.

(** The segments of a split put back together, the separator between them. *)
Fixpoint join (sep : ascii) (segs : list string) : string :=
  match segs with
  | [] => EmptyString
  | [seg] => seg
  | seg :: segs' => seg ++ String sep (join sep segs')
  end.

(** The segments put back together with a string between them. *)
Fixpoint join_with (sep : string) (segs : list string) : string :=
  match segs with
  | [] => EmptyString
  | [seg] => seg
  | seg :: segs' => seg ++ sep ++ join_with sep segs'
  end.

(** The regex source of a wildcard pattern when nothing is escaped: the
    segments of the pattern between its stars, each as it is written, with
    [.*] between them and the two anchors around. *)
Definition unescaped_source (pattern : string) : string :=
  "^" ++ join_with ".*" (JS.split "*" pattern) ++ "$".

(** Two held lists that hold the same set of codes. *)
Definition same_codes (held1 held2 : list string) : Prop :=
  forall code, In code held1 <-> In code held2.

(** [skip_run ok k s]: [s] is a run of characters passing [ok], possibly
    empty, followed by a string that [k] accepts. *)
Fixpoint skip_run (ok : ascii -> bool) (k : string -> bool) (s : string) : bool :=
  k s ||
  match s with
  | EmptyString => false
  | String c s' => ok c && skip_run ok k s'
  end.

(** The matcher the specification describes for a wildcard pattern: anchored
    at both ends, the star standing for any substring, the empty one included,
    and every other character standing for itself. *)
Fixpoint literal_wildcard_match (pattern s : string) : bool :=
  match pattern with
  | EmptyString => ECMAScript.at_end s
  | String p pattern' =>
      if Ascii.eqb p "*" then
        skip_run (fun _ => true) (literal_wildcard_match pattern') s
      else
        match s with
        | EmptyString => false
        | String c s' => Ascii.eqb c p && literal_wildcard_match pattern' s'
        end
  end.

(** The matcher the code builds: anchored at both ends, the star standing for
    any run of characters other than line terminators, the dot for any single
    character other than a line terminator, and every other character for
    itself. *)
Fixpoint wildcard_match (pattern s : string) : bool :=
  match pattern with
  | EmptyString => ECMAScript.at_end s
  | String p pattern' =>
      if Ascii.eqb p "*" then
        skip_run (fun c => negb (ECMAScript.isLineTerminator c))
                 (wildcard_match pattern') s
      else
        match s with
        | EmptyString => false
        | String c s' =>
            (if Ascii.eqb p "." then negb (ECMAScript.isLineTerminator c)
             else Ascii.eqb c p)
            && wildcard_match pattern' s'
        end
  end.

(** A string that holds a line terminator. *)
Fixpoint has_line_terminator (s : string) : bool :=
  match s with
  | EmptyString => false
  | String c s' => ECMAScript.isLineTerminator c || has_line_terminator s'
  end.

(** The patterns whose characters are stars, dots and characters without
    regex significance. *)
Fixpoint stars_dots_and_plain (pattern : string) : bool :=
  match pattern with
  | EmptyString => true
  | String p pattern' =>
      (Ascii.eqb p "*" || Ascii.eqb p "." || negb (ECMAScript.isSyntaxCharacter p))
      && stars_dots_and_plain pattern'
  end.

(** The terms of the regex built from such a pattern, character by
    character. *)
Fixpoint terms_of_pattern (pattern : string) : list ECMAScript.term :=
  match pattern with
  | EmptyString => []
  | String p pattern' =>
      (if Ascii.eqb p "*" then ECMAScript.AtomStar ECMAScript.Dot
       else if Ascii.eqb p "." then ECMAScript.Atom ECMAScript.Dot
       else ECMAScript.Atom (ECMAScript.PatternCharacter p))
      :: terms_of_pattern pattern'
  end.

(** A string that does not begin with a quantifier. *)
Definition no_leading_quantifier (s : string) : bool :=
  match s with
  | EmptyString => true
  | String q _ =>
      negb (Ascii.eqb q "*") && negb (Ascii.eqb q "+") && negb (Ascii.eqb q "?")
  end.

(** [Subsequence l1 l2]: [l1] is [l2] with some elements left out, the
    others in the order and with the multiplicity they have in [l2]. *)
Inductive Subsequence : list string -> list string -> Prop :=
| Subsequence_nil : Subsequence [] []
| Subsequence_keep (x : string) (l1 l2 : list string) :
    Subsequence l1 l2 -> Subsequence (x :: l1) (x :: l2)
| Subsequence_drop (x : string) (l1 l2 : list string) :
    Subsequence l1 l2 -> Subsequence l1 (x :: l2).

(** A string without any character of regex significance. *)
Fixpoint no_syntax_character (s : string) : bool :=
  match s with
  | EmptyString => true
  | String c s' => negb (ECMAScript.isSyntaxCharacter c) && no_syntax_character s'
  end.

(** ** src/schemas/permission.ts

    The validator of the field [code] of [permissionSchema]:
    [z.string().min(3, ...).regex(/^[a-z_]+:[a-z_]+$/, ...)].  A zod string
    schema runs each of its checks on the input and accepts it when none of
    them raises an issue: [min(3)] asks for a length of at least 3, [regex]
    for [test] of the regex literal to be true.

    The regex literal uses character classes, which the engine above leaves
    out; its terms are written down here with a matcher of their own, built
    like [ECMAScript.matches]. *)

Module SchemaRegExp.

Inductive atom : Type :=
| PatternCharacter (c : ascii)
| CharacterClass (ranges : list (ascii * ascii)).

Inductive term : Type :=
| AssertStart
| AssertEnd
| Atom (a : atom)
| AtomPlus (a : atom).

(** A class such as [[a-z_]]: the ranges [a-z] and [_-_]. *)
Definition in_ranges (ranges : list (ascii * ascii)) (c : ascii) : bool :=
  existsb (fun range => Ascii.leb (fst range) c && Ascii.leb c (snd range)) ranges.

Definition atom_matches (a : atom) (c : ascii) : bool :=
  match a with
  | PatternCharacter d => Ascii.eqb c d
  | CharacterClass ranges => in_ranges ranges c
  end.

(** The repetitions of a greedy quantifier after the first one. *)
Fixpoint repeat_more (a : atom) (k : bool -> string -> bool) (s : string) : bool :=
  match s with
  | EmptyString => k false s
  | String c s' => (atom_matches a c && repeat_more a k s') || k false s
  end.

Fixpoint matches (ts : list term) (at_start : bool) (s : string) : bool :=
  match ts with
  | [] => true
  | AssertStart :: ts' => at_start && matches ts' at_start s
  | AssertEnd :: ts' => ECMAScript.at_end s && matches ts' at_start s
  | Atom a :: ts' =>
      match s with
      | EmptyString => false
      | String c s' => atom_matches a c && matches ts' false s'
      end
  | AtomPlus a :: ts' =>
      match s with
      | EmptyString => false
      | String c s' => atom_matches a c && repeat_more a (matches ts') s'
      end
  end.

Fixpoint search (ts : list term) (at_start : bool) (s : string) : bool :=
  matches ts at_start s ||
  match s with
  | EmptyString => false
  | String _ s' => search ts false s'
  end.

Definition test (ts : list term) (s : string) : bool := search ts true s.

End SchemaRegExp.

(** [[a-z_]] *)
Definition lowercase_or_underscore : SchemaRegExp.atom :=
  SchemaRegExp.CharacterClass [("a", "z"); ("_", "_")]%char.

(** [/^[a-z_]+:[a-z_]+$/] *)
Definition permission_code_regex : list SchemaRegExp.term :=
  [ SchemaRegExp.AssertStart;
    SchemaRegExp.AtomPlus lowercase_or_underscore;
    SchemaRegExp.Atom (SchemaRegExp.PatternCharacter ":");
    SchemaRegExp.AtomPlus lowercase_or_underscore;
    SchemaRegExp.AssertEnd ].

(** Whether [permissionSchema] accepts a string as [code]. *)
Definition permissionSchema_code (code : string) : bool :=
  Nat.leb 3 (String.length code) && SchemaRegExp.test permission_code_regex code.

(** A string made of the characters that pass [ok]. *)
Fixpoint all_characters (ok : ascii -> bool) (s : string) : bool :=
  match s with
  | EmptyString => true
  | String c s' => ok c && all_characters ok s'
  end.

(** ** Running the embedding on the examples of the documentation *)

Example hasPermissionPattern_doc_example :
  hasPermissionPattern ECMAScript.engine
    ["users:create"; "roles:view"] "users:*" = Some true.
Proof. reflexivity. Qed.

Example hasPermissionPattern_exact :
  hasPermissionPattern ECMAScript.engine
    ["users:create"; "roles:view"] "users:edit" = Some false.
Proof. reflexivity. Qed.

Example getPermissionsByCategory_doc_example :
  getPermissionsByCategory ["users:create"; "roles:view"; "users:edit"] "users"
  = ["users:create"; "users:edit"].
Proof. reflexivity. Qed.

(** ** Arrays of strings *)

Section Arrays.

Lemma includes_In (arr : list string) (x : string) :
  JS.includes arr x = true <-> In x arr.
Proof.
  unfold JS.includes. rewrite existsb_exists. split.
  - intros [y [Hy Heq]]. apply String.eqb_eq in Heq. now subst.
  - intros Hx. exists x. split; [assumption | apply String.eqb_refl].
Qed.

Lemma includes_same_codes (held1 held2 : list string) (x : string) :
  same_codes held1 held2 -> JS.includes held1 x = JS.includes held2 x.
Proof.
  intros Hs. apply eq_true_iff_eq. rewrite !includes_In. apply Hs.
Qed.

Lemma includes_incl (held1 held2 : list string) (x : string) :
  incl held1 held2 -> JS.includes held1 x = true -> JS.includes held2 x = true.
Proof.
  intros Hi. rewrite !includes_In. apply Hi.
Qed.

Lemma existsb_same_codes (f : string -> bool) (held1 held2 : list string) :
  same_codes held1 held2 -> existsb f held1 = existsb f held2.
Proof.
  intros Hs. apply eq_true_iff_eq. rewrite !existsb_exists.
  split; intros [y [Hy Hf]]; exists y; split; try assumption; now apply Hs.
Qed.

Lemma existsb_incl (f : string -> bool) (held1 held2 : list string) :
  incl held1 held2 -> existsb f held1 = true -> existsb f held2 = true.
Proof.
  intros Hi. rewrite !existsb_exists.
  intros [y [Hy Hf]]. exists y. split; [now apply Hi | assumption].
Qed.

End Arrays.

(** ** Splitting at a separator *)

Section Split.

Variable sep : ascii.

Lemma split_not_nil (s : string) : JS.split sep s <> [].
Proof.
  destruct s as [|c s]; simpl; [discriminate|].
  destruct (Ascii.eqb c sep); [discriminate|].
  destruct (JS.split sep s); discriminate.
Qed.

Lemma split_length (s : string) :
  List.length (JS.split sep s) = S (count_char sep s).
Proof.
  induction s as [|c s IH]; simpl; [reflexivity|].
  destruct (Ascii.eqb c sep); simpl.
  - now rewrite IH.
  - destruct (JS.split sep s) as [|seg segs] eqn:E; simpl in *; [discriminate | exact IH].
Qed.

Lemma join_split (s : string) : join sep (JS.split sep s) = s.
Proof.
  induction s as [|c s IH]; simpl; [reflexivity|].
  destruct (Ascii.eqb c sep) eqn:Ec.
  - apply Ascii.eqb_eq in Ec. subst c.
    pose proof (split_not_nil s) as Hn.
    destruct (JS.split sep s) as [|seg segs] eqn:E; [congruence|].
    change (join sep (EmptyString :: seg :: segs))
      with (EmptyString ++ String sep (join sep (seg :: segs))).
    now rewrite IH.
  - pose proof (split_not_nil s) as Hn.
    destruct (JS.split sep s) as [|seg segs] eqn:E; [congruence|].
    destruct segs as [|seg' segs]; simpl in *; now rewrite IH.
Qed.

Lemma split_segments_clean (s : string) :
  Forall (fun seg => count_char sep seg = 0) (JS.split sep s).
Proof.
  induction s as [|c s IH]; simpl.
  - constructor; [reflexivity | constructor].
  - destruct (Ascii.eqb c sep) eqn:Ec.
    + constructor; [reflexivity | assumption].
    + destruct (JS.split sep s) as [|seg segs] eqn:E.
      * constructor; [simpl; now rewrite Ec | constructor].
      * inversion IH as [|? ? Hseg Hsegs]; subst.
        constructor; [simpl; now rewrite Ec | assumption].
Qed.

End Split.

Lemma count_char_app (c : ascii) (s t : string) :
  count_char c (s ++ t) = count_char c s + count_char c t.
Proof.
  induction s as [|d s IH]; simpl; [reflexivity|]. rewrite IH. lia.
Qed.

(** What [parsePermission] answers, case by case on the number of colons. *)
Lemma parsePermission_spec (code : string) :
  match parsePermission code with
  | Some p =>
      count_char ":" code = 1 /\ code = resource p ++ ":" ++ action p /\
      count_char ":" (resource p) = 0 /\ count_char ":" (action p) = 0
  | None => count_char ":" code <> 1
  end.
Proof.
  unfold parsePermission.
  pose proof (split_length ":" code) as Hl.
  pose proof (join_split ":" code) as Hj.
  pose proof (split_segments_clean ":" code) as Hc.
  destruct (JS.split ":" code) as [|r [|a [|x parts]]]; simpl in *; try lia.
  inversion Hc as [|? ? Hr Hc']; subst. inversion Hc' as [|? ? Ha _]; subst.
  repeat split; try assumption; try lia.
Qed.

(** ** Structured parsing *)

(** C3: [parsePermission "users:create"] is the pair of resource [users] and
    action [create]; [parsePermission "invalid"] and [parsePermission "a:b:c"]
    are the null sentinel; in general the function is total, it answers the
    two segments around the colon when the code holds exactly one colon and
    the sentinel otherwise. *)
Theorem parsePermission_one_colon :
  parsePermission "users:create"
    = Some {| resource := "users"; action := "create" |} /\
  parsePermission "invalid" = None /\
  parsePermission "a:b:c" = None /\
  forall code : string,
    match parsePermission code with
    | Some p =>
        count_char ":" code = 1 /\ code = resource p ++ ":" ++ action p /\
        count_char ":" (resource p) = 0 /\ count_char ":" (action p) = 0
    | None => count_char ":" code <> 1
    end.
Proof.
  repeat split; try reflexivity; try apply parsePermission_spec.
Qed.

Lemma not_two_nonempty_segments_trailing_colon : ~ two_nonempty_segments "a:".
Proof.
  intros (r & a & Heq & _ & Ha & _ & _).
  destruct r as [|c [|c' r]]; simpl in Heq; try discriminate.
  - apply Ha. congruence.
  - destruct r; discriminate.
Qed.

(** C2, as the specification states it, fails: the code ["a:"] does not
    consist of two non-empty segments, yet it parses, with an empty action. *)
Lemma parsePermission_empty_segment_parses :
  ~ two_nonempty_segments "a:" /\
  parsePermission "a:" = Some {| resource := "a"; action := "" |} /\
  parsePermission "a:" <> None.
Proof.
  split; [exact not_two_nonempty_segments_trailing_colon|].
  split; [reflexivity | discriminate].
Qed.

(** C2, amended: [parsePermission] answers the null sentinel exactly for the
    codes that do not hold exactly one colon; the two segments around a single
    colon are not required to be non-empty, so ["a:"] and [":b"] parse. *)
Theorem parsePermission_none_iff (code : string) :
  (parsePermission code = None <-> count_char ":" code <> 1) /\
  parsePermission "a:" = Some {| resource := "a"; action := "" |} /\
  parsePermission ":b" = Some {| resource := ""; action := "b" |}.
Proof.
  split; [|split; reflexivity].
  pose proof (parsePermission_spec code) as H.
  destruct (parsePermission code) as [p|].
  - split; [discriminate | tauto].
  - tauto.
Qed.

(** ** Membership predicates *)

(** C5: [hasAllPermissions held codes] is true exactly when every element of
    [codes] is an element of [held]; on the empty [codes] it is true. *)
Theorem hasAllPermissions_subset (held codes : list string) :
  (hasAllPermissions held codes = true <-> incl codes held) /\
  hasAllPermissions held [] = true.
Proof.
  split; [|reflexivity].
  unfold hasAllPermissions, JS.every. rewrite forallb_forall. unfold incl.
  split; intros H c Hc; apply includes_In; now apply H.
Qed.

(** C6: [hasAnyPermission held codes] is true exactly when some element of
    [codes] is an element of [held]; on the empty [codes] it is false. *)
Theorem hasAnyPermission_intersection (held codes : list string) :
  (hasAnyPermission held codes = true <->
     exists code, In code codes /\ In code held) /\
  hasAnyPermission held [] = false.
Proof.
  split; [|reflexivity].
  unfold hasAnyPermission, JS.some. rewrite existsb_exists.
  split; intros [c [Hc Hh]]; exists c; (split; [assumption|]);
    now apply includes_In.
Qed.

(** ** Role levels *)

(** C7: on integer levels [hasRoleLevel userLevel requiredLevel] is true
    exactly when [userLevel >= requiredLevel]; [hasRoleLevel 50 60] is
    false. *)
Theorem hasRoleLevel_ge (userLevel requiredLevel : Z) :
  (hasRoleLevel userLevel requiredLevel = true <->
     (userLevel >= requiredLevel)%Z) /\
  hasRoleLevel 50 60 = false.
Proof.
  split; [|reflexivity].
  unfold hasRoleLevel. rewrite Z.geb_le. lia.
Qed.

(** ** Retry defaults *)

(** C9: the default retry configuration of the authentication calls is three
    attempts in total and a base delay of 1000 milliseconds: the two
    constants are 3 and 1000; with them as configuration a wrapped call
    invokes its operation at least once and at most three times, whatever
    the operation, the multiplier and the classification of failures, and
    waits 1000 ms times the multiplier to the power of the attempt index
    between two invocations; an operation that keeps failing with a
    retryable error is invoked exactly three times, after waits of 1000 and
    1000 times the multiplier, and its last failure is surfaced. *)
Theorem auth_retry_defaults :
  MAX_AUTH_RETRIES = 3%Z /\ AUTH_RETRY_BASE_DELAY_MS = 1000%Z /\
  (forall (A Err : Type) (multiplier : Z) (isRetryable : Err -> bool)
          (operation : nat -> AuthRetry.outcome A Err),
     let run := AuthRetry.withRetry
                  (AuthRetry.defaultConfig multiplier isRetryable) operation in
     1 <= AuthRetry.invocations run <= 3 /\
     AuthRetry.waits run
     = firstn (AuthRetry.invocations run - 1) [1000; 1000 * multiplier]%Z) /\
  (forall (A Err : Type) (multiplier : Z) (error : Err),
     AuthRetry.withRetry (AuthRetry.defaultConfig multiplier (fun _ => true))
                         (fun _ => @AuthRetry.Rejected A Err error)
     = {| AuthRetry.settled := AuthRetry.Rejected error;
          AuthRetry.invocations := 3;
          AuthRetry.waits := [1000; 1000 * multiplier]%Z |}).
Proof.
  split; [reflexivity|]. split; [reflexivity|].
  assert (Hw0 : forall m : Z, (1000 * m ^ Z.of_nat 0 = 1000)%Z).
  { intros m. change (Z.of_nat 0) with 0%Z. rewrite Z.pow_0_r. reflexivity. }
  assert (Hw1 : forall m : Z, (1000 * m ^ Z.of_nat 1 = 1000 * m)%Z).
  { intros m. change (Z.of_nat 1) with 1%Z. now rewrite Z.pow_1_r. }
  split.
  - intros A Err m retryable operation.
    unfold AuthRetry.withRetry, AuthRetry.defaultConfig.
    change (Z.to_nat (AuthRetry.maxAttempts _) - 1) with 2.
    cbn [AuthRetry.attempt AuthRetry.isRetryable AuthRetry.baseDelay
         AuthRetry.multiplier].
    change AUTH_RETRY_BASE_DELAY_MS with 1000%Z.
    rewrite Hw0, Hw1.
    destruct (operation 0) as [v0|e0]; [cbn; split; [lia | reflexivity]|].
    destruct (retryable e0); [|cbn; split; [lia | reflexivity]].
    destruct (operation 1) as [v1|e1];
      [cbn -[Z.mul]; split; [lia | reflexivity]|].
    destruct (retryable e1);
      [|cbn -[Z.mul]; split; [lia | reflexivity]].
    destruct (operation 2) as [v2|e2];
      [cbn -[Z.mul]; split; [lia | reflexivity]|].
    destruct (retryable e2);
      cbn -[Z.mul]; split; (lia || reflexivity).
  - intros A Err m error.
    unfold AuthRetry.withRetry, AuthRetry.defaultConfig.
    change (Z.to_nat (AuthRetry.maxAttempts _) - 1) with 2.
    cbn [AuthRetry.attempt AuthRetry.isRetryable AuthRetry.baseDelay
         AuthRetry.multiplier AuthRetry.settled AuthRetry.invocations
         AuthRetry.waits].
    change AUTH_RETRY_BASE_DELAY_MS with 1000%Z.
    now rewrite Hw0, Hw1.
Qed.

(** ** Compiling a wildcard pattern *)

Module PatternCompilation.
Import ECMAScript.

Lemma plain_not_assertion (c : ascii) :
  isSyntaxCharacter c = false ->
  Ascii.eqb c "^" = false /\ Ascii.eqb c "$" = false /\
  Ascii.eqb c "*" = false /\ Ascii.eqb c "." = false.
Proof.
  unfold isSyntaxCharacter. simpl.
  destruct (Ascii.eqb_spec "^" c) as [<-|]; [discriminate|].
  destruct (Ascii.eqb_spec "$" c) as [<-|]; [discriminate|].
  destruct (Ascii.eqb_spec "\" c) as [<-|]; [discriminate|].
  destruct (Ascii.eqb_spec "." c) as [<-|]; [discriminate|].
  destruct (Ascii.eqb_spec "*" c) as [<-|]; [discriminate|].
  intros _. repeat split; apply Ascii.eqb_neq; congruence.
Qed.

Lemma plain_not_operator (c : ascii) :
  isSyntaxCharacter c = false ->
  Ascii.eqb c "|" = false /\ Ascii.eqb c "+" = false /\ Ascii.eqb c "?" = false.
Proof.
  destruct c as [[|] [|] [|] [|] [|] [|] [|] [|]];
    vm_compute; intros H; try discriminate H; repeat split.
Qed.

Lemma no_leading_quantifier_replace (pattern tail : string) :
  stars_dots_and_plain pattern = true ->
  no_leading_quantifier tail = true ->
  no_leading_quantifier (JS.replace_star pattern ++ tail) = true.
Proof.
  intros Hp Ht. destruct pattern as [|p pattern]; simpl; [assumption|].
  simpl in Hp. apply andb_true_iff in Hp as [Hc _].
  destruct (Ascii.eqb p "*") eqn:Ep; simpl; [reflexivity|].
  rewrite Ep. simpl in Hc.
  destruct (Ascii.eqb p ".") eqn:Edot.
  - apply Ascii.eqb_eq in Edot. now subst p.
  - simpl in Hc. apply negb_true_iff in Hc.
    destruct (plain_not_operator p Hc) as (_ & Hplus & Hopt).
    now rewrite Hplus, Hopt.
Qed.

Lemma no_leading_quantifier_head (q : ascii) (rest : string) :
  no_leading_quantifier (String q rest) = true ->
  parse_quantifier q = None /\ Ascii.eqb q "?" = false.
Proof.
  unfold no_leading_quantifier, parse_quantifier. intros H.
  apply andb_true_iff in H as [H Hopt]. apply andb_true_iff in H as [Hstar Hplus].
  apply negb_true_iff in Hstar, Hplus, Hopt.
  now rewrite Hstar, Hplus, Hopt.
Qed.

(** An atom that no quantifier follows is a term of its own. *)
Lemma parse_atom_alone (c : ascii) (a : atom) (rest : string) :
  Ascii.eqb c "|" = false ->
  Ascii.eqb c "^" = false -> Ascii.eqb c "$" = false ->
  parse_atom c = Some a -> no_leading_quantifier rest = true ->
  parse (String c rest) = option_map (add_term (Atom a)) (parse rest).
Proof.
  intros H0 H1 H2 Ha Hr. cbn [parse]. rewrite H0, H1, H2, Ha.
  destruct rest as [|q rest]; [reflexivity|].
  destruct (no_leading_quantifier_head q rest Hr) as [Hq _]. now rewrite Hq.
Qed.

(** The dot and the star that [replace] puts for a star of the pattern are
    one term, when no lazy mark follows. *)
Lemma parse_dot_star (rest : string) :
  no_leading_quantifier rest = true ->
  parse (String "." (String "*" rest))
  = option_map (add_term (AtomStar Dot)) (parse rest).
Proof.
  intros Hr. cbn [parse]. cbn.
  destruct rest as [|q rest]; [reflexivity|].
  destruct (no_leading_quantifier_head q rest Hr) as [_ Hq]. now rewrite Hq.
Qed.

(** The terms [ts] read in front of what the rest of the source parses to. *)
Lemma add_terms_single (ts alternative : list term) :
  fold_right add_term [alternative] ts = [(ts ++ alternative)%list].
Proof.
  induction ts as [|t ts IH]; simpl; [reflexivity | now rewrite IH].
Qed.

Lemma option_map_add_term (t : term) (ts : list term)
      (o : option (list (list term))) :
  option_map (add_term t) (option_map (fun alts => fold_right add_term alts ts) o)
  = option_map (fun alts => fold_right add_term alts (t :: ts)) o.
Proof. now destruct o. Qed.

Lemma parse_replace_star (pattern tail : string) :
  stars_dots_and_plain pattern = true ->
  no_leading_quantifier tail = true ->
  parse (JS.replace_star pattern ++ tail)
  = option_map (fun alts => fold_right add_term alts (terms_of_pattern pattern))
               (parse tail).
Proof.
  intros Hp Ht. induction pattern as [|p pattern IH].
  - simpl. now destruct (parse tail).
  - pose proof Hp as Hp'.
    simpl in Hp. apply andb_true_iff in Hp as [Hc Hp].
    specialize (IH Hp).
    pose proof (no_leading_quantifier_replace pattern tail Hp Ht) as Hn.
    cbn [JS.replace_star terms_of_pattern].
    destruct (Ascii.eqb p "*") eqn:Estar.
    + change (parse (String "." (String "*" (JS.replace_star pattern ++ tail)))
              = option_map
                  (fun alts => fold_right add_term alts
                                 (AtomStar Dot :: terms_of_pattern pattern))
                  (parse tail)).
      rewrite parse_dot_star by assumption.
      rewrite IH. apply option_map_add_term.
    + change (parse (String p (JS.replace_star pattern ++ tail))
              = option_map
                  (fun alts => fold_right add_term alts
                     ((if Ascii.eqb p "." then Atom Dot
                       else Atom (PatternCharacter p))
                      :: terms_of_pattern pattern)) (parse tail)).
      destruct (Ascii.eqb p ".") eqn:Edot.
      * apply Ascii.eqb_eq in Edot. subst p.
        rewrite parse_atom_alone with (a := Dot); try reflexivity; try assumption.
        rewrite IH. apply option_map_add_term.
      * simpl in Hc. apply negb_true_iff in Hc.
        destruct (plain_not_assertion p Hc) as (H1 & H2 & _ & _).
        destruct (plain_not_operator p Hc) as (H0 & _ & _).
        rewrite parse_atom_alone with (a := PatternCharacter p); try assumption.
        -- rewrite IH. apply option_map_add_term.
        -- unfold parse_atom. now rewrite Edot, Hc.
Qed.

(** The source handed to the constructor parses to one alternative, the
    terms of the pattern between the two anchors. *)
Lemma parse_anchored (pattern : string) :
  stars_dots_and_plain pattern = true ->
  parse ("^" ++ JS.replace_star pattern ++ "$")
  = Some [AssertStart :: terms_of_pattern pattern ++ [AssertEnd]]%list.
Proof.
  intros Hp.
  change (parse ("^" ++ JS.replace_star pattern ++ "$"))
    with (option_map (add_term AssertStart)
                     (parse (JS.replace_star pattern ++ "$"))).
  rewrite parse_replace_star by (assumption || reflexivity).
  change (parse "$") with (Some [[AssertEnd]]).
  cbn [option_map]. now rewrite add_terms_single.
Qed.

End PatternCompilation.

(** ** Testing a compiled pattern *)

Module PatternMatching.
Import ECMAScript.

(** A regex whose one alternative opens with [^] matches at index 0 or
    nowhere. *)
Lemma search_anchored_later (ts : list term) (s : string) :
  search [AssertStart :: ts] false s = false.
Proof.
  induction s as [|c s IH]; simpl; [reflexivity | exact IH].
Qed.

Lemma test_anchored (ts : list term) (s : string) :
  test [AssertStart :: ts] s = matches ts true s.
Proof.
  unfold test. destruct s as [|c s]; cbn [search matches_any existsb].
  - cbn [matches]. now rewrite !orb_false_r.
  - rewrite search_anchored_later, !orb_false_r. reflexivity.
Qed.

(** The greedy loop of the star and the run of the specification accept the
    same inputs: the order in which the lengths are tried does not change
    the answer. *)
Lemma repeat_star_skip_run (a : atom) (k : bool -> string -> bool)
      (k' : string -> bool) :
  (forall b s, k b s = k' s) ->
  forall b s, repeat_star a k b s = skip_run (atom_matches a) k' s.
Proof.
  intros Hk b s. revert b.
  induction s as [|c s IH]; intros b; simpl.
  - now rewrite Hk, orb_false_r.
  - rewrite IH, Hk. apply orb_comm.
Qed.

Lemma skip_run_ext (ok ok' : ascii -> bool) (k : string -> bool) (s : string) :
  (forall c, ok c = ok' c) -> skip_run ok k s = skip_run ok' k s.
Proof.
  intros Hok. induction s as [|c s IH]; simpl; [reflexivity|].
  now rewrite IH, Hok.
Qed.

Lemma matches_terms_of_pattern (pattern : string) :
  stars_dots_and_plain pattern = true ->
  forall b s,
    matches (terms_of_pattern pattern ++ [AssertEnd]) b s
    = wildcard_match pattern s.
Proof.
  induction pattern as [|p pattern IH]; intros Hp b s.
  - simpl. apply andb_true_r.
  - simpl in Hp. apply andb_true_iff in Hp as [_ Hp].
    specialize (IH Hp).
    cbn [terms_of_pattern wildcard_match app].
    destruct (Ascii.eqb p "*") eqn:Estar; [|destruct (Ascii.eqb p ".") eqn:Edot].
    + cbn [matches].
      rewrite repeat_star_skip_run
        with (k' := wildcard_match pattern) by exact IH.
      reflexivity.
    + cbn [matches]. destruct s as [|c s]; [reflexivity|].
      now rewrite IH.
    + cbn [matches]. destruct s as [|c s]; [reflexivity|].
      now rewrite IH.
Qed.

(** Without dots in the pattern and without line terminators in the input,
    the matcher the code builds is the literal one. *)
Lemma skip_run_no_terminator (k k' : string -> bool) (s : string) :
  has_line_terminator s = false ->
  (forall t, has_line_terminator t = false -> k t = k' t) ->
  skip_run (fun c => negb (isLineTerminator c)) k s
  = skip_run (fun _ => true) k' s.
Proof.
  intros Hs Hk. induction s as [|c s IH]; simpl.
  - now rewrite Hk.
  - simpl in Hs. apply orb_false_iff in Hs as [Hc Hs].
    now rewrite Hk, Hc, IH by (simpl; rewrite ?Hc; assumption).
Qed.

Lemma wildcard_match_literal (pattern : string) :
  JS.includes_char "." pattern = false ->
  forall s, has_line_terminator s = false ->
    wildcard_match pattern s = literal_wildcard_match pattern s.
Proof.
  induction pattern as [|p pattern IH]; intros Hd s Hs; [reflexivity|].
  simpl in Hd. destruct (Ascii.eqb p ".") eqn:Edot; [discriminate|].
  specialize (IH Hd). cbn [wildcard_match literal_wildcard_match].
  rewrite Edot.
  destruct (Ascii.eqb p "*").
  - now apply skip_run_no_terminator.
  - destruct s as [|c s]; [reflexivity|].
    simpl in Hs. apply orb_false_iff in Hs as [_ Hs]. now rewrite IH.
Qed.

(** A plain prefix followed by one star. *)
Lemma skip_run_to_end (s : string) :
  skip_run (fun c => negb (isLineTerminator c)) at_end s
  = negb (has_line_terminator s).
Proof.
  induction s as [|c s IH]; simpl; [reflexivity|].
  rewrite IH. now rewrite negb_orb.
Qed.

Lemma wildcard_match_prefix (prefix s : string) :
  JS.includes_char "*" prefix = false ->
  JS.includes_char "." prefix = false ->
  has_line_terminator prefix = false ->
  wildcard_match (prefix ++ "*") s
  = JS.startsWith s prefix && negb (has_line_terminator s).
Proof.
  revert s. induction prefix as [|p prefix IH]; intros s Hstar Hdot Hlt.
  - simpl. exact (skip_run_to_end s).
  - simpl in Hstar, Hdot, Hlt.
    destruct (Ascii.eqb p "*") eqn:Estar; [discriminate|].
    destruct (Ascii.eqb p ".") eqn:Edot; [discriminate|].
    apply orb_false_iff in Hlt as [Hp Hlt].
    change (wildcard_match (String p (prefix ++ "*")) s
            = JS.startsWith s (String p prefix) && negb (has_line_terminator s)).
    cbn [wildcard_match JS.startsWith]. rewrite Estar, Edot.
    destruct s as [|c s]; [reflexivity|].
    rewrite IH by assumption. cbn [has_line_terminator].
    destruct (Ascii.eqb_spec c p) as [->|]; [|reflexivity].
    now rewrite Hp.
Qed.

End PatternMatching.

(** ** The wildcard branch of [hasPermissionPattern] *)

Lemma hasPermissionPattern_wildcard_match (held : list string) (pattern : string) :
  JS.includes_char "*" pattern = true ->
  stars_dots_and_plain pattern = true ->
  hasPermissionPattern ECMAScript.engine held pattern
  = Some (existsb (wildcard_match pattern) held).
Proof.
  intros Hstar Hp. unfold hasPermissionPattern. rewrite Hstar.
  cbn [RegExp_new RegExp_test ECMAScript.engine].
  rewrite PatternCompilation.parse_anchored by assumption.
  unfold JS.some. f_equal.
  induction held as [|code held IH]; [reflexivity|].
  cbn [existsb]. rewrite IH. f_equal.
  rewrite PatternMatching.test_anchored.
  now apply PatternMatching.matches_terms_of_pattern.
Qed.

Lemma existsb_ext_in (f g : string -> bool) (l : list string) :
  (forall x, In x l -> f x = g x) -> existsb f l = existsb g l.
Proof.
  intros H. induction l as [|x l IH]; [reflexivity|].
  simpl. rewrite H by now left. rewrite IH; [reflexivity|].
  intros y Hy. apply H. now right.
Qed.

Example syntax_characters :
  forallb ECMAScript.isSyntaxCharacter
    (list_ascii_of_string "^$\.*+?()[]{}|") = true /\
  String.length "^$\.*+?()[]{}|" = 14 /\
  existsb ECMAScript.isSyntaxCharacter (list_ascii_of_string "users:view-_/,") = false.
Proof. repeat split. Qed.

Example line_feed_is_line_terminator :
  ECMAScript.isLineTerminator (ascii_of_nat 10) = true /\
  ECMAScript.isLineTerminator (ascii_of_nat 13) = true /\
  ECMAScript.isLineTerminator " " = false.
Proof. repeat split. Qed.

(** C1, as the specification states it, fails: nothing is escaped, so the dot
    of the pattern ["users.*"] is the dot of the regex and the held code
    ["usersXview"] matches, although the literal matcher rejects it. *)
Lemma hasPermissionPattern_dot_not_escaped :
  JS.includes_char "*" "users.*" = true /\
  hasPermissionPattern ECMAScript.engine ["usersXview"] "users.*" = Some true /\
  existsb (literal_wildcard_match "users.*") ["usersXview"] = false.
Proof. repeat split. Qed.

Lemma replace_star_segments (pattern : string) :
  JS.replace_star pattern = join_with ".*" (JS.split "*" pattern).
Proof.
  induction pattern as [|p pattern IH]; [reflexivity|].
  pose proof (split_not_nil "*" pattern) as Hn.
  cbn [JS.replace_star JS.split].
  destruct (Ascii.eqb p "*").
  - destruct (JS.split "*" pattern) as [|seg segs]; [congruence|].
    rewrite IH. reflexivity.
  - rewrite IH.
    destruct (JS.split "*" pattern) as [|seg [|seg' segs]];
      [congruence | reflexivity | reflexivity].
Qed.

Lemma hasPermissionPattern_source (E : RegExpEngine)
      (held : list string) (pattern : string) :
  JS.includes_char "*" pattern = true ->
  hasPermissionPattern E held pattern
  = match RegExp_new E (unescaped_source pattern) with
    | None => None
    | Some regex => Some (existsb (RegExp_test E regex) held)
    end.
Proof.
  intros Hstar. unfold hasPermissionPattern, unescaped_source.
  now rewrite Hstar, replace_star_segments.
Qed.

(** C1, amended: for every held list and every pattern that contains a
    star, [hasPermissionPattern] escapes nothing: the source it hands to the
    RegExp constructor is [^], the segments of the pattern between its stars
    as they are written with [.*] between them, and [$]; it throws when the
    constructor does and otherwise answers whether some element of [held]
    passes [test] of the regex compiled from that source, with every regex
    engine.  The characters of regex significance keep it.  When the pattern
    holds, besides stars, only dots and characters without regex
    significance, the regex is an anchored full-string matcher in which a
    star matches any run of characters other than line terminators, a dot any
    single character other than a line terminator and every other character
    itself; when moreover the pattern has no dot and no held code holds a
    line terminator, that is the literal matcher of the specification. *)
Theorem hasPermissionPattern_wildcard_unescaped
    (held : list string) (pattern : string) :
  JS.includes_char "*" pattern = true ->
  (join "*" (JS.split "*" pattern) = pattern /\
   forall E : RegExpEngine,
     hasPermissionPattern E held pattern
     = match RegExp_new E (unescaped_source pattern) with
       | None => None
       | Some regex => Some (existsb (RegExp_test E regex) held)
       end) /\
  (stars_dots_and_plain pattern = true ->
   hasPermissionPattern ECMAScript.engine held pattern
   = Some (existsb (wildcard_match pattern) held)) /\
  (stars_dots_and_plain pattern = true ->
   JS.includes_char "." pattern = false ->
   existsb has_line_terminator held = false ->
   hasPermissionPattern ECMAScript.engine held pattern
   = Some (existsb (literal_wildcard_match pattern) held)).
Proof.
  intros Hstar. split; [|split].
  - split; [apply join_split|].
    intros E. now apply hasPermissionPattern_source.
  - intros Hp. now apply hasPermissionPattern_wildcard_match.
  - intros Hp Hdot Hlt.
    rewrite hasPermissionPattern_wildcard_match by assumption.
    f_equal. apply existsb_ext_in. intros code Hc.
    apply PatternMatching.wildcard_match_literal; [assumption|].
    destruct (has_line_terminator code) eqn:E; [|reflexivity].
    rewrite <- Hlt. symmetry. apply existsb_exists. now exists code.
Qed.

Lemma hasPermissionPattern_wildcard_unescaped_witness :
  JS.includes_char "*" "users:*" = true /\
  unescaped_source "users:*" = "^users:.*$" /\
  hasPermissionPattern ECMAScript.engine ["roles:edit"; "users:view"] "users:*"
    = Some (existsb (wildcard_match "users:*") ["roles:edit"; "users:view"]) /\
  hasPermissionPattern ECMAScript.engine ["roles:edit"; "users:view"] "users:*"
    = Some (existsb (literal_wildcard_match "users:*") ["roles:edit"; "users:view"]).
Proof.
  split; [reflexivity|]. split; [reflexivity|].
  pose proof (@hasPermissionPattern_wildcard_unescaped
                ["roles:edit"; "users:view"] "users:*" eq_refl) as (_ & H2 & H3).
  split; [apply H2 | apply H3]; reflexivity.
Defined.

(** What the characters left unescaped do.  The bar splits the source
    [^a|b.*$] into the alternatives [^a] and [b.*$]: neither is anchored at
    both ends, and a held code that merely begins with [a] passes.  The plus
    and the question mark quantify the character before them.  A quantifier
    with nothing to repeat makes the constructor throw, whatever is held. *)
Example hasPermissionPattern_unescaped_operators :
  unescaped_source "a|b*" = "^a|b.*$" /\
  hasPermissionPattern ECMAScript.engine ["axyz"] "a|b*" = Some true /\
  existsb (literal_wildcard_match "a|b*") ["axyz"] = false /\
  hasPermissionPattern ECMAScript.engine ["aaa:view"] "a+:*" = Some true /\
  existsb (literal_wildcard_match "a+:*") ["aaa:view"] = false /\
  hasPermissionPattern ECMAScript.engine ["user:view"] "users?:*" = Some true /\
  existsb (literal_wildcard_match "users?:*") ["user:view"] = false /\
  hasPermissionPattern ECMAScript.engine ["users:view"] "users:view$*" = Some true /\
  existsb (literal_wildcard_match "users:view$*") ["users:view"] = false /\
  (forall held, hasPermissionPattern ECMAScript.engine held "+*" = None) /\
  (forall held, hasPermissionPattern ECMAScript.engine held "*+" = None).
Proof. repeat split. Qed.

(** C4, as the specification states it, fails: the regex dot matches no line
    terminator, so a held code that starts with ["users:"] and goes on with a
    line feed is not matched. *)
Lemma hasPermissionPattern_users_star_line_feed :
  hasPermissionPattern ECMAScript.engine
    ["users:" ++ String "010" EmptyString] "users:*" = Some false /\
  exists code,
    In code ["users:" ++ String "010" EmptyString] /\
    JS.startsWith code "users:" = true.
Proof.
  split; [reflexivity|].
  eexists. split; [left; reflexivity | reflexivity].
Qed.

(** C4, amended: [hasPermissionPattern held "users:*"] returns, without
    throwing, true exactly when [held] contains at least one code that starts
    with ["users:"] and holds no line terminator. *)
Theorem hasPermissionPattern_users_star (held : list string) :
  exists b : bool,
    hasPermissionPattern ECMAScript.engine held "users:*" = Some b /\
    (b = true <->
     exists code, In code held /\ JS.startsWith code "users:" = true /\
                  has_line_terminator code = false).
Proof.
  eexists. split.
  - apply hasPermissionPattern_wildcard_match; reflexivity.
  - rewrite existsb_exists. split.
    + intros [code [Hin Hm]]. exists code. split; [assumption|].
      change "users:*" with ("users:" ++ "*") in Hm.
      rewrite PatternMatching.wildcard_match_prefix in Hm by reflexivity.
      apply andb_true_iff in Hm as [Hs Hl]. apply negb_true_iff in Hl. now split.
    + intros [code [Hin [Hs Hl]]]. exists code. split; [assumption|].
      change "users:*" with ("users:" ++ "*").
      rewrite PatternMatching.wildcard_match_prefix by reflexivity.
      now rewrite Hs, Hl.
Qed.

(** ** The held permissions as a set *)

(** C8: two held lists with the same set of codes, whatever the order and
    the duplicates, give the same answer to [hasPermission],
    [hasAnyPermission], [hasAllPermissions] and [hasPermissionPattern], for
    every query and every regular-expression engine. *)
Theorem predicates_respect_set_semantics
    (E : RegExpEngine) (held1 held2 : list string) :
  same_codes held1 held2 ->
  (forall code, hasPermission held1 code = hasPermission held2 code) /\
  (forall codes, hasAnyPermission held1 codes = hasAnyPermission held2 codes) /\
  (forall codes, hasAllPermissions held1 codes = hasAllPermissions held2 codes) /\
  (forall pattern,
     hasPermissionPattern E held1 pattern = hasPermissionPattern E held2 pattern).
Proof.
  intros Hs. repeat split.
  - intros code. now apply includes_same_codes.
  - intros codes. unfold hasAnyPermission, JS.some.
    induction codes as [|c codes IH]; [reflexivity|].
    simpl. now rewrite IH, (includes_same_codes c Hs).
  - intros codes. unfold hasAllPermissions, JS.every.
    induction codes as [|c codes IH]; [reflexivity|].
    simpl. now rewrite IH, (includes_same_codes c Hs).
  - intros pattern. unfold hasPermissionPattern.
    destruct (JS.includes_char "*" pattern).
    + destruct (RegExp_new E _) as [regex|]; [|reflexivity].
      unfold JS.some. f_equal. now apply existsb_same_codes.
    + f_equal. now apply includes_same_codes.
Qed.

Lemma predicates_respect_set_semantics_witness :
  same_codes ["users:view"; "roles:edit"] ["roles:edit"; "users:view"; "roles:edit"] /\
  hasPermissionPattern ECMAScript.engine ["users:view"; "roles:edit"] "users:*"
  = hasPermissionPattern ECMAScript.engine
      ["roles:edit"; "users:view"; "roles:edit"] "users:*".
Proof.
  assert (Hs : same_codes ["users:view"; "roles:edit"]
                          ["roles:edit"; "users:view"; "roles:edit"]).
  { intros code. simpl. tauto. }
  split; [exact Hs|].
  apply (predicates_respect_set_semantics ECMAScript.engine Hs).
Defined.

(** C10: the predicates are monotone in the held list: when every element
    of [A] is an element of [B], a check that [hasPermission],
    [hasAnyPermission], [hasAllPermissions] or [hasPermissionPattern] grants
    on [A] is granted on [B] too, for every query and every
    regular-expression engine. *)
Theorem predicates_monotone (E : RegExpEngine) (A B : list string) :
  incl A B ->
  (forall code, hasPermission A code = true -> hasPermission B code = true) /\
  (forall codes, hasAnyPermission A codes = true -> hasAnyPermission B codes = true) /\
  (forall codes, hasAllPermissions A codes = true -> hasAllPermissions B codes = true) /\
  (forall pattern,
     hasPermissionPattern E A pattern = Some true ->
     hasPermissionPattern E B pattern = Some true).
Proof.
  intros Hi. repeat split.
  - intros code. now apply includes_incl.
  - intros codes. unfold hasAnyPermission, JS.some. rewrite !existsb_exists.
    intros [c [Hc Hin]]. exists c. split; [assumption|].
    now apply (includes_incl c Hi).
  - intros codes. unfold hasAllPermissions, JS.every. rewrite !forallb_forall.
    intros H c Hc. apply (includes_incl c Hi). now apply H.
  - intros pattern. unfold hasPermissionPattern.
    destruct (JS.includes_char "*" pattern).
    + destruct (RegExp_new E _) as [regex|]; [|discriminate].
      unfold JS.some. intros H. injection H as H. f_equal.
      now apply (existsb_incl _ Hi).
    + intros H. injection H as H. f_equal. now apply (includes_incl _ Hi).
Qed.

Lemma predicates_monotone_witness :
  incl ["users:view"] ["roles:edit"; "users:view"] /\
  hasPermission ["roles:edit"; "users:view"] "users:view" = true /\
  hasPermissionPattern ECMAScript.engine
    ["roles:edit"; "users:view"] "users:*" = Some true.
Proof.
  assert (Hi : incl ["users:view"] ["roles:edit"; "users:view"]).
  { intros code. simpl. tauto. }
  split; [exact Hi|].
  destruct (predicates_monotone ECMAScript.engine Hi) as (H1 & _ & _ & H4).
  split; [apply H1 | apply H4]; reflexivity.
Defined.


(** * Further properties of [src/lib/permissions.ts] *)

(** ** Exact membership *)

(** [hasPermission] is membership in the held list. *)
Theorem hasPermission_membership (held : list string) (code : string) :
  hasPermission held code = true <-> In code held.
Proof. apply includes_In. Qed.

Lemma hasAnyPermission_true_iff (held codes : list string) :
  hasAnyPermission held codes = true <->
  exists code, In code codes /\ In code held.
Proof.
  unfold hasAnyPermission, JS.some. rewrite existsb_exists.
  split; intros [c [Hc Hh]]; exists c; (split; [assumption|]);
    now apply includes_In.
Qed.

Lemma hasAllPermissions_true_iff (held codes : list string) :
  hasAllPermissions held codes = true <-> incl codes held.
Proof.
  unfold hasAllPermissions, JS.every. rewrite forallb_forall. unfold incl.
  split; intros H c Hc; apply includes_In; now apply H.
Qed.

(** A query list and a held list share a code whichever of the two is the
    held one. *)
Theorem hasAnyPermission_symmetric (l1 l2 : list string) :
  hasAnyPermission l1 l2 = hasAnyPermission l2 l1.
Proof.
  apply eq_true_iff_eq. rewrite !hasAnyPermission_true_iff.
  split; intros [c [H1 H2]]; exists c; now split.
Qed.

(** [hasAllPermissions] is a preorder on lists of codes: every list holds
    all of its own codes, and holding all of [B] while [B] holds all of [C]
    is holding all of [C]. *)
Theorem hasAllPermissions_preorder (A B C : list string) :
  hasAllPermissions A A = true /\
  (hasAllPermissions A B = true -> hasAllPermissions B C = true ->
   hasAllPermissions A C = true).
Proof.
  rewrite !hasAllPermissions_true_iff. split.
  - apply incl_refl.
  - intros HB HC. now apply incl_tran with B.
Qed.

Lemma hasAllPermissions_preorder_witness :
  hasAllPermissions ["a:x"; "b:y"; "c:z"] ["b:y"; "a:x"] = true /\
  hasAllPermissions ["b:y"; "a:x"] ["a:x"] = true /\
  hasAllPermissions ["a:x"; "b:y"; "c:z"] ["a:x"] = true.
Proof.
  split; [reflexivity|]. split; [reflexivity|].
  apply (proj2 (hasAllPermissions_preorder
                  ["a:x"; "b:y"; "c:z"] ["b:y"; "a:x"] ["a:x"]));
    reflexivity.
Defined.

(** With a single required code the three membership predicates agree; with
    a non-empty list of required codes, holding all of them is holding one of
    them. *)
Theorem any_all_single_and_nonempty (held codes : list string) (code : string) :
  hasAnyPermission held [code] = hasPermission held code /\
  hasAllPermissions held [code] = hasPermission held code /\
  (codes <> [] -> hasAllPermissions held codes = true ->
   hasAnyPermission held codes = true).
Proof.
  split; [|split].
  - unfold hasAnyPermission, hasPermission, JS.some. simpl. apply orb_false_r.
  - unfold hasAllPermissions, hasPermission, JS.every. simpl. apply andb_true_r.
  - intros Hne Hall. destruct codes as [|c codes]; [congruence|].
    apply hasAnyPermission_true_iff. exists c. split; [now left|].
    apply hasAllPermissions_true_iff in Hall. apply Hall. now left.
Qed.

Lemma any_all_single_and_nonempty_witness :
  ["users:view"; "roles:edit"] <> [] /\
  hasAllPermissions ["roles:edit"; "x:y"; "users:view"]
                    ["users:view"; "roles:edit"] = true /\
  hasAnyPermission ["roles:edit"; "x:y"; "users:view"]
                   ["users:view"; "roles:edit"] = true.
Proof.
  split; [discriminate|]. split; [reflexivity|].
  apply (proj2 (proj2 (any_all_single_and_nonempty
                         ["roles:edit"; "x:y"; "users:view"]
                         ["users:view"; "roles:edit"] "users:view")));
    [discriminate | reflexivity].
Defined.

(** ** Role levels as an order *)

(** [hasRoleLevel] is a total order on integer levels: reflexive, total,
    transitive, and two levels that dominate each other are equal. *)
Theorem hasRoleLevel_total_order (a b c : Z) :
  hasRoleLevel a a = true /\
  hasRoleLevel a b || hasRoleLevel b a = true /\
  (hasRoleLevel a b = true -> hasRoleLevel b c = true -> hasRoleLevel a c = true) /\
  (hasRoleLevel a b = true -> hasRoleLevel b a = true -> a = b).
Proof.
  unfold hasRoleLevel. rewrite orb_true_iff, !Z.geb_le. lia.
Qed.

Lemma hasRoleLevel_total_order_witness :
  hasRoleLevel 100 50 = true /\ hasRoleLevel 50 10 = true /\
  hasRoleLevel 100 10 = true.
Proof.
  split; [reflexivity|]. split; [reflexivity|].
  destruct (hasRoleLevel_total_order 100 50 10) as (_ & _ & Htrans & _).
  apply Htrans; reflexivity.
Defined.


(** ** Permissions by category *)

Section Prefixes.

Lemma startsWith_app (p rest : string) : JS.startsWith (p ++ rest) p = true.
Proof.
  induction p as [|c p IH]; simpl; [reflexivity|].
  now rewrite Ascii.eqb_refl, IH.
Qed.

Lemma startsWith_split (s p : string) :
  JS.startsWith s p = true -> exists rest, s = p ++ rest.
Proof.
  revert s. induction p as [|c p IH]; intros s H.
  - now exists s.
  - destruct s as [|d s]; simpl in H; [discriminate|].
    apply andb_true_iff in H as [Hc Hs]. apply Ascii.eqb_eq in Hc. subst d.
    destruct (IH s Hs) as [rest ->]. now exists rest.
Qed.

(** Two separator-free prefixes of one string, each followed by the
    separator, are the same prefix. *)
Lemma separated_prefix_unique (sep : ascii) (s p q : string) :
  count_char sep p = 0 -> count_char sep q = 0 ->
  JS.startsWith s (p ++ String sep EmptyString) = true ->
  JS.startsWith s (q ++ String sep EmptyString) = true ->
  p = q.
Proof.
  revert s q. induction p as [|c p IH]; intros s q Hp Hq Hsp Hsq.
  - destruct q as [|d q]; [reflexivity|]. exfalso.
    destruct s as [|e s]; simpl in Hsp, Hsq; [discriminate|].
    apply andb_true_iff in Hsp as [He _]. apply andb_true_iff in Hsq as [Hd _].
    apply Ascii.eqb_eq in He, Hd. subst. simpl in Hq.
    rewrite Ascii.eqb_refl in Hq. discriminate.
  - destruct s as [|e s]; simpl in Hsp; [discriminate|].
    apply andb_true_iff in Hsp as [He Hsp]. apply Ascii.eqb_eq in He. subst e.
    simpl in Hp. destruct (Ascii.eqb c sep) eqn:Ec; [discriminate|].
    destruct q as [|d q]; simpl in Hsq.
    + apply andb_true_iff in Hsq as [Hd _]. congruence.
    + apply andb_true_iff in Hsq as [Hd Hsq]. apply Ascii.eqb_eq in Hd. subst d.
      simpl in Hq. rewrite Ec in Hq.
      f_equal. now apply (IH s q).
Qed.

End Prefixes.

(** [getPermissionsByCategory held category] is the codes of [held] that
    start with the category and a colon, and no others, in the order and with
    the multiplicity they have in [held]. *)
Theorem getPermissionsByCategory_selects (held : list string) (category : string) :
  Subsequence (getPermissionsByCategory held category) held /\
  (forall code,
     In code (getPermissionsByCategory held category) <->
     In code held /\ JS.startsWith code (category ++ ":") = true) /\
  (forall code,
     count_occ string_dec (getPermissionsByCategory held category) code
     = if JS.startsWith code (category ++ ":")
       then count_occ string_dec held code else 0).
Proof.
  unfold getPermissionsByCategory, JS.filter. split; [|split].
  - induction held as [|c held IH]; simpl; [constructor|].
    destruct (JS.startsWith c (category ++ ":")); now constructor.
  - intros code.
    exact (filter_In (fun permission => JS.startsWith permission (category ++ ":"))
                     code held).
  - intros code. induction held as [|c held IH]; simpl.
    + now destruct (JS.startsWith code (category ++ ":")).
    + destruct (JS.startsWith c (category ++ ":")) eqn:Ec; simpl;
        destruct (string_dec c code) as [->|Hne]; rewrite IH; try reflexivity.
      * now rewrite Ec.
      * now rewrite Ec.
Qed.

(** Selecting a category twice selects it once, and the selections of two
    different colon-free categories have no code in common. *)
Theorem getPermissionsByCategory_partition
    (held : list string) (category1 category2 : string) :
  getPermissionsByCategory (getPermissionsByCategory held category1) category1
    = getPermissionsByCategory held category1 /\
  (count_char ":" category1 = 0 -> count_char ":" category2 = 0 ->
   category1 <> category2 ->
   getPermissionsByCategory (getPermissionsByCategory held category1) category2
     = []).
Proof.
  unfold getPermissionsByCategory, JS.filter. split.
  - induction held as [|c held IH]; simpl; [reflexivity|].
    destruct (JS.startsWith c (category1 ++ ":")) eqn:Ec; simpl;
      [rewrite Ec; now f_equal | assumption].
  - intros H1 H2 Hne.
    induction held as [|c held IH]; simpl; [reflexivity|].
    destruct (JS.startsWith c (category1 ++ ":")) eqn:Ec1; simpl; [|assumption].
    destruct (JS.startsWith c (category2 ++ ":")) eqn:Ec2; [|assumption].
    exfalso. apply Hne.
    now apply (separated_prefix_unique ":" c).
Qed.

Lemma getPermissionsByCategory_partition_witness :
  count_char ":" "users" = 0 /\ count_char ":" "roles" = 0 /\
  "users" <> "roles" /\
  getPermissionsByCategory
    (getPermissionsByCategory ["users:view"; "roles:edit"; "users:edit"] "users")
    "roles" = [].
Proof.
  split; [reflexivity|]. split; [reflexivity|]. split; [discriminate|].
  apply (proj2 (getPermissionsByCategory_partition
                  ["users:view"; "roles:edit"; "users:edit"] "users" "roles"));
    [reflexivity | reflexivity | discriminate].
Defined.

(** Without the side condition the selections can overlap: the code
    ["a:b:c"] belongs to the category ["a"] and to the category ["a:b"]. *)
Example getPermissionsByCategory_overlap :
  getPermissionsByCategory (getPermissionsByCategory ["a:b:c"] "a") "a:b"
  = ["a:b:c"].
Proof. reflexivity. Qed.

(** ** Categories and parsed codes *)

Lemma split_no_separator (sep : ascii) (s : string) :
  count_char sep s = 0 -> JS.split sep s = [s].
Proof.
  induction s as [|c s IH]; simpl; [reflexivity|].
  destruct (Ascii.eqb c sep); [discriminate|].
  intros H. now rewrite IH.
Qed.

Lemma split_first_separator (sep : ascii) (r a : string) :
  count_char sep r = 0 ->
  JS.split sep (r ++ String sep a) = r :: JS.split sep a.
Proof.
  induction r as [|c r IH]; simpl.
  - now rewrite Ascii.eqb_refl.
  - destruct (Ascii.eqb c sep); [discriminate|].
    intros H. now rewrite IH.
Qed.

Lemma parsePermission_joined (r a : string) :
  count_char ":" r = 0 -> count_char ":" a = 0 ->
  parsePermission (r ++ ":" ++ a) = Some {| resource := r; action := a |}.
Proof.
  intros Hr Ha. unfold parsePermission.
  change (r ++ ":" ++ a) with (r ++ String ":" a).
  rewrite split_first_separator by assumption.
  now rewrite split_no_separator.
Qed.

(** Round trip: a resource and an action without colon, joined by a colon,
    parse back to themselves; the empty resource and the empty action
    included. *)
Theorem parsePermission_round_trip (r a : string) :
  count_char ":" r = 0 -> count_char ":" a = 0 ->
  parsePermission (r ++ ":" ++ a) = Some {| resource := r; action := a |}.
Proof. apply parsePermission_joined. Qed.

Lemma parsePermission_round_trip_witness :
  count_char ":" "users" = 0 /\ count_char ":" "create" = 0 /\
  parsePermission ("users" ++ ":" ++ "create")
  = Some {| resource := "users"; action := "create" |}.
Proof.
  split; [reflexivity|]. split; [reflexivity|].
  apply (@parsePermission_round_trip "users" "create"); reflexivity.
Defined.

(** A code that parses is selected by the category of its resource, and a
    code selected by a colon-free category parses, if it parses, to that
    category as resource. *)
Theorem parsePermission_category (held : list string) (category code : string)
                                 (p : ParsedPermission) :
  parsePermission code = Some p ->
  (In code held -> In code (getPermissionsByCategory held (resource p))) /\
  (count_char ":" category = 0 ->
   In code (getPermissionsByCategory held category) -> resource p = category).
Proof.
  intros Hp. pose proof (parsePermission_spec code) as Hspec.
  rewrite Hp in Hspec. destruct Hspec as (_ & Hcode & Hr & _).
  assert (Hstart : JS.startsWith code (resource p ++ ":") = true).
  { rewrite Hcode at 1.
    change (resource p ++ ":" ++ action p)
      with (resource p ++ String ":" (action p)).
    replace (resource p ++ String ":" (action p))
      with ((resource p ++ ":") ++ action p).
    - apply startsWith_app.
    - generalize (resource p). intros r.
      induction r as [|c r IH]; simpl; [reflexivity | now rewrite IH]. }
  split.
  - intros Hin. unfold getPermissionsByCategory, JS.filter.
    apply filter_In. now split.
  - intros Hc Hin. unfold getPermissionsByCategory, JS.filter in Hin.
    apply filter_In in Hin as [_ Hs].
    now apply (separated_prefix_unique ":" code).
Qed.

Lemma parsePermission_category_witness :
  parsePermission "users:view" = Some {| resource := "users"; action := "view" |} /\
  In "users:view" (getPermissionsByCategory ["roles:edit"; "users:view"] "users").
Proof.
  split; [reflexivity|].
  apply (proj1 (@parsePermission_category ["roles:edit"; "users:view"] "users"
                  "users:view" {| resource := "users"; action := "view" |}
                  eq_refl)).
  simpl. tauto.
Defined.

(** ** Patterns *)

(** A pattern without star is looked up as it is: for every engine
    [hasPermissionPattern] answers what [hasPermission] answers and throws
    nothing, whatever regex significance the characters of the pattern
    have. *)
Theorem hasPermissionPattern_without_wildcard
    (E : RegExpEngine) (held : list string) (pattern : string) :
  JS.includes_char "*" pattern = false ->
  hasPermissionPattern E held pattern = Some (hasPermission held pattern).
Proof.
  intros H. unfold hasPermissionPattern. now rewrite H.
Qed.

Lemma hasPermissionPattern_without_wildcard_witness :
  JS.includes_char "*" "a.c" = false /\
  hasPermissionPattern ECMAScript.engine ["abc"; "a.c"] "a.c" = Some true /\
  hasPermissionPattern ECMAScript.engine ["abc"] "a.c" = Some false.
Proof.
  split; [reflexivity|].
  rewrite !(@hasPermissionPattern_without_wildcard ECMAScript.engine _ "a.c" eq_refl).
  split; reflexivity.
Defined.

Section PlainStrings.

Lemma stars_dots_and_plain_app (s t : string) :
  stars_dots_and_plain (s ++ t)
  = stars_dots_and_plain s && stars_dots_and_plain t.
Proof.
  induction s as [|c s IH]; simpl; [reflexivity|].
  now rewrite IH, andb_assoc.
Qed.

Lemma includes_char_app (c : ascii) (s t : string) :
  JS.includes_char c (s ++ t) = JS.includes_char c s || JS.includes_char c t.
Proof.
  induction s as [|d s IH]; simpl; [reflexivity|].
  now destruct (Ascii.eqb d c).
Qed.

Lemma has_line_terminator_app (s t : string) :
  has_line_terminator (s ++ t) = has_line_terminator s || has_line_terminator t.
Proof.
  induction s as [|d s IH]; simpl; [reflexivity|].
  now rewrite IH, orb_assoc.
Qed.

Lemma append_assoc (s t u : string) : (s ++ t) ++ u = s ++ t ++ u.
Proof.
  induction s as [|c s IH]; simpl; [reflexivity | now rewrite IH].
Qed.

Lemma no_syntax_character_plain (s : string) :
  no_syntax_character s = true ->
  stars_dots_and_plain s = true /\
  JS.includes_char "*" s = false /\ JS.includes_char "." s = false.
Proof.
  induction s as [|c s IH]; simpl; [now repeat split|].
  intros H. apply andb_true_iff in H as [Hc Hs].
  destruct (IH Hs) as (H1 & H2 & H3).
  apply negb_true_iff in Hc.
  destruct (PatternCompilation.plain_not_assertion c Hc) as (_ & _ & Hstar & Hdot).
  now rewrite Hc, Hstar, Hdot, H1, H2, H3.
Qed.

Lemma existsb_filter (f g : string -> bool) (l : list string) :
  existsb g (List.filter f l) = existsb (fun x => f x && g x) l.
Proof.
  induction l as [|x l IH]; simpl; [reflexivity|].
  destruct (f x); simpl; now rewrite IH.
Qed.

End PlainStrings.

Lemma category_wildcard_selected (held : list string) (category : string) :
  no_syntax_character category = true ->
  has_line_terminator category = false ->
  hasPermissionPattern ECMAScript.engine held (category ++ ":*")
  = Some (existsb (fun code => negb (has_line_terminator code))
                  (getPermissionsByCategory held category)).
Proof.
  intros Hplain Hlt.
  destruct (no_syntax_character_plain category Hplain) as (Hp & Hstar & Hdot).
  rewrite hasPermissionPattern_wildcard_match.
  - f_equal. unfold getPermissionsByCategory, JS.filter.
    rewrite existsb_filter. apply existsb_ext_in. intros code _.
    change (category ++ ":*") with (category ++ ":" ++ "*").
    rewrite <- append_assoc.
    apply PatternMatching.wildcard_match_prefix.
    + now rewrite includes_char_app, Hstar.
    + now rewrite includes_char_app, Hdot.
    + now rewrite has_line_terminator_app, Hlt.
  - now rewrite includes_char_app, orb_true_r.
  - now rewrite stars_dots_and_plain_app, Hp.
Qed.

(** The wildcard over a category: for a category without character of regex
    significance and without line terminator, [hasPermissionPattern] on the
    category followed by [":*"] throws nothing and asks whether
    [getPermissionsByCategory] selects a code free of line terminators. *)
Theorem hasPermissionPattern_category (held : list string) (category : string) :
  no_syntax_character category = true ->
  has_line_terminator category = false ->
  hasPermissionPattern ECMAScript.engine held (category ++ ":*")
  = Some (existsb (fun code => negb (has_line_terminator code))
                  (getPermissionsByCategory held category)).
Proof. apply category_wildcard_selected. Qed.

Lemma hasPermissionPattern_category_witness :
  no_syntax_character "users" = true /\
  has_line_terminator "users" = false /\
  hasPermissionPattern ECMAScript.engine ["roles:edit"; "users:view"] ("users" ++ ":*")
  = Some (existsb (fun code => negb (has_line_terminator code))
                  (getPermissionsByCategory ["roles:edit"; "users:view"] "users")).
Proof.
  split; [reflexivity|]. split; [reflexivity|].
  apply (@hasPermissionPattern_category ["roles:edit"; "users:view"] "users");
    reflexivity.
Defined.

Section WildcardShapes.

Lemma wildcard_match_self (pattern : string) :
  has_line_terminator pattern = false -> wildcard_match pattern pattern = true.
Proof.
  induction pattern as [|p pattern IH]; intros Hlt; [reflexivity|].
  simpl in Hlt. apply orb_false_iff in Hlt as [Hp Hlt].
  specialize (IH Hlt). cbn [wildcard_match].
  destruct (Ascii.eqb p "*") eqn:Estar.
  - cbn [skip_run]. rewrite Hp. cbn [negb andb].
    destruct pattern as [|q pattern]; cbn [skip_run]; rewrite IH;
      now rewrite ?orb_true_r.
  - destruct (Ascii.eqb p "."); rewrite IH, ?Hp, ?Ascii.eqb_refl; reflexivity.
Qed.

Lemma wildcard_match_plain (pattern s : string) :
  JS.includes_char "*" pattern = false ->
  JS.includes_char "." pattern = false ->
  wildcard_match pattern s = String.eqb s pattern.
Proof.
  revert s. induction pattern as [|p pattern IH]; intros s Hstar Hdot.
  - now destruct s.
  - simpl in Hstar, Hdot.
    destruct (Ascii.eqb p "*") eqn:Estar; [discriminate|].
    destruct (Ascii.eqb p ".") eqn:Edot; [discriminate|].
    cbn [wildcard_match]. rewrite Estar, Edot.
    destruct s as [|c s]; [reflexivity|].
    rewrite IH by assumption. reflexivity.
Qed.

Lemma skip_run_true_iff (ok : ascii -> bool) (k : string -> bool) (s : string) :
  skip_run ok k s = true <->
  exists pre post,
    s = pre ++ post /\ skip_run ok ECMAScript.at_end pre = true /\ k post = true.
Proof.
  induction s as [|c s IH].
  - simpl. rewrite orb_false_r. split.
    + intros H. now exists EmptyString, EmptyString.
    + intros (pre & post & Heq & _ & Hk).
      destruct pre; [|discriminate]. simpl in Heq. now subst post.
  - cbn [skip_run]. rewrite orb_true_iff, andb_true_iff, IH. split.
    + intros [Hk | [Hc (pre & post & Heq & Hpre & Hk)]].
      * now exists EmptyString, (String c s).
      * exists (String c pre), post. subst s. repeat split; try assumption.
        cbn [skip_run ECMAScript.at_end]. now rewrite Hc, Hpre.
    + intros (pre & post & Heq & Hpre & Hk).
      destruct pre as [|d pre].
      * left. simpl in Heq. now subst post.
      * right. injection Heq as -> ->.
        cbn [skip_run ECMAScript.at_end] in Hpre. simpl in Hpre.
        apply andb_true_iff in Hpre as [Hc Hpre].
        split; [assumption|]. now exists pre, post.
Qed.

End WildcardShapes.

(** Whoever holds a code passes the pattern spelled like that code: for a
    pattern of stars, dots and characters without regex significance, free of
    line terminators, [hasPermission] implies [hasPermissionPattern]. *)
Theorem hasPermission_implies_pattern (held : list string) (pattern : string) :
  stars_dots_and_plain pattern = true ->
  has_line_terminator pattern = false ->
  hasPermission held pattern = true ->
  hasPermissionPattern ECMAScript.engine held pattern = Some true.
Proof.
  intros Hp Hlt Hheld.
  destruct (JS.includes_char "*" pattern) eqn:Estar.
  - rewrite hasPermissionPattern_wildcard_match by assumption. f_equal.
    apply existsb_exists. exists pattern.
    split; [now apply includes_In | now apply wildcard_match_self].
  - unfold hasPermissionPattern. rewrite Estar. now f_equal.
Qed.

Lemma hasPermission_implies_pattern_witness :
  stars_dots_and_plain "users:*" = true /\
  has_line_terminator "users:*" = false /\
  hasPermission ["roles:edit"; "users:*"] "users:*" = true /\
  hasPermissionPattern ECMAScript.engine ["roles:edit"; "users:*"] "users:*"
  = Some true.
Proof.
  split; [reflexivity|]. split; [reflexivity|]. split; [reflexivity|].
  apply (@hasPermission_implies_pattern ["roles:edit"; "users:*"] "users:*");
    reflexivity.
Defined.

(** The wildcard before a suffix: for a suffix without character of regex
    significance, [hasPermissionPattern] on the star followed by the suffix
    throws nothing and is true exactly when some held code is the suffix
    preceded by a run of characters that holds no line terminator. *)
Theorem hasPermissionPattern_suffix (held : list string) (suffix : string) :
  no_syntax_character suffix = true ->
  exists b : bool,
    hasPermissionPattern ECMAScript.engine held ("*" ++ suffix) = Some b /\
    (b = true <->
     exists code pre,
       In code held /\ code = pre ++ suffix /\ has_line_terminator pre = false).
Proof.
  intros Hplain.
  destruct (no_syntax_character_plain suffix Hplain) as (Hp & Hstar & Hdot).
  eexists. split.
  - now apply hasPermissionPattern_wildcard_match.
  - rewrite existsb_exists.
    change (wildcard_match ("*" ++ suffix))
      with (skip_run (fun c => negb (ECMAScript.isLineTerminator c))
                     (wildcard_match suffix)).
    split.
    + intros (code & Hin & Hm).
      apply skip_run_true_iff in Hm as (pre & post & Heq & Hpre & Hk).
      rewrite wildcard_match_plain in Hk by assumption.
      apply String.eqb_eq in Hk. subst post.
      exists code, pre. repeat split; try assumption.
      rewrite PatternMatching.skip_run_to_end in Hpre.
      now apply negb_true_iff in Hpre.
    + intros (code & pre & Hin & Heq & Hlt).
      exists code. split; [assumption|].
      apply skip_run_true_iff. exists pre, suffix. repeat split.
      * assumption.
      * rewrite PatternMatching.skip_run_to_end. now rewrite Hlt.
      * rewrite wildcard_match_plain by assumption. apply String.eqb_refl.
Qed.

Lemma hasPermissionPattern_suffix_witness :
  no_syntax_character ":view" = true /\
  exists b : bool,
    hasPermissionPattern ECMAScript.engine ["roles:edit"; "users:view"] ("*" ++ ":view")
    = Some b /\
    (b = true <->
     exists code pre,
       In code ["roles:edit"; "users:view"] /\ code = pre ++ ":view" /\
       has_line_terminator pre = false).
Proof.
  split; [reflexivity|].
  apply (@hasPermissionPattern_suffix ["roles:edit"; "users:view"] ":view").
  reflexivity.
Defined.

(** ** Codes the permission schema accepts *)

Example permissionSchema_code_examples :
  permissionSchema_code "users:create" = true /\
  permissionSchema_code "audit_logs:view" = true /\
  permissionSchema_code "users" = false /\
  permissionSchema_code "a:" = false /\
  permissionSchema_code ":b" = false /\
  permissionSchema_code "a:b:c" = false /\
  permissionSchema_code "Users:create" = false /\
  permissionSchema_code "a:b" = true.
Proof. repeat split. Qed.

Module SchemaMatching.
Import SchemaRegExp.

Lemma schema_test_anchored (ts : list term) (s : string) :
  test (AssertStart :: ts) s = matches ts true s.
Proof.
  assert (Hlater : forall t, search (AssertStart :: ts) false t = false).
  { induction t as [|c t IH]; simpl; [reflexivity | exact IH]. }
  unfold test. destruct s as [|c s]; cbn [search].
  - cbn [matches]. now rewrite orb_false_r.
  - rewrite Hlater, orb_false_r. reflexivity.
Qed.

Lemma repeat_more_skip_run (a : atom) (k : bool -> string -> bool)
      (k' : string -> bool) (s : string) :
  (forall t, k false t = k' t) ->
  repeat_more a k s = skip_run (atom_matches a) k' s.
Proof.
  intros Hk. induction s as [|c s IH]; simpl.
  - now rewrite Hk, orb_false_r.
  - rewrite IH, Hk. apply orb_comm.
Qed.

Lemma skip_run_all_characters (ok : ascii -> bool) (s : string) :
  skip_run ok ECMAScript.at_end s = all_characters ok s.
Proof.
  induction s as [|c s IH]; simpl; [reflexivity | now rewrite IH].
Qed.

(** What the characters of the class [[a-z_]] are not. *)
Lemma lowercase_or_underscore_plain (c : ascii) :
  atom_matches lowercase_or_underscore c = true ->
  Ascii.eqb c ":" = false /\
  ECMAScript.isLineTerminator c = false /\
  ECMAScript.isSyntaxCharacter c = false.
Proof.
  destruct c as [[|] [|] [|] [|] [|] [|] [|] [|]];
    vm_compute; intros H; try discriminate H; repeat split.
Qed.

Lemma class_string_plain (s : string) :
  all_characters (atom_matches lowercase_or_underscore) s = true ->
  count_char ":" s = 0 /\ has_line_terminator s = false.
Proof.
  induction s as [|c s IH]; [now split|].
  cbn [all_characters count_char has_line_terminator].
  intros H. apply andb_true_iff in H as [Hc Hs].
  destruct (IH Hs) as [H1 H2].
  destruct (lowercase_or_underscore_plain c Hc) as (Hcolon & Hlt & _).
  now rewrite Hcolon, Hlt, H1, H2.
Qed.

(** The strings [/^[a-z_]+:[a-z_]+$/] accepts. *)
Lemma permission_code_regex_shape (code : string) :
  test permission_code_regex code = true <->
  exists r a,
    code = r ++ ":" ++ a /\ r <> "" /\ a <> "" /\
    all_characters (atom_matches lowercase_or_underscore) r = true /\
    all_characters (atom_matches lowercase_or_underscore) a = true.
Proof.
  unfold permission_code_regex. rewrite schema_test_anchored.
  set (L := lowercase_or_underscore).
  set (tail := [Atom (PatternCharacter ":"); AtomPlus L; AssertEnd]).
  assert (Hend : forall t, repeat_more L (matches [AssertEnd]) t
                           = all_characters (atom_matches L) t).
  { intros t. rewrite repeat_more_skip_run with (k' := ECMAScript.at_end).
    - apply skip_run_all_characters.
    - intros u. simpl. apply andb_true_r. }
  split.
  - intros H. destruct code as [|c code]; [discriminate|].
    cbn [matches] in H. apply andb_true_iff in H as [Hc H].
    rewrite repeat_more_skip_run with (k' := matches tail false) in H
      by reflexivity.
    apply skip_run_true_iff in H as (pre & post & Heq & Hpre & Hk).
    rewrite skip_run_all_characters in Hpre.
    unfold tail in Hk. destruct post as [|q post]; [discriminate|].
    cbn [matches] in Hk. apply andb_true_iff in Hk as [Hq Hk].
    simpl in Hq. apply Ascii.eqb_eq in Hq. subst q.
    destruct post as [|d post]; [discriminate|].
    apply andb_true_iff in Hk as [Hd Hk]. rewrite Hend in Hk.
    exists (String c pre), (String d post). subst code.
    repeat split; try discriminate.
    + cbn [all_characters]. now rewrite Hc, Hpre.
    + cbn [all_characters]. now rewrite Hd, Hk.
  - intros (r & a & Heq & Hr & Ha & Hrl & Hal). subst code.
    destruct r as [|c r]; [congruence|]. destruct a as [|d a]; [congruence|].
    cbn [all_characters] in Hrl, Hal.
    apply andb_true_iff in Hrl as [Hc Hrl]. apply andb_true_iff in Hal as [Hd Hal].
    change (String c r ++ ":" ++ String d a)
      with (String c (r ++ String ":" (String d a))).
    cbn [matches]. rewrite Hc. cbn [andb].
    rewrite repeat_more_skip_run with (k' := matches tail false) by reflexivity.
    apply skip_run_true_iff. exists r, (String ":" (String d a)).
    repeat split.
    + now rewrite skip_run_all_characters.
    + unfold tail. cbn [matches atom_matches].
      rewrite Ascii.eqb_refl, Hd. cbn [andb].
      change (repeat_more L (matches [AssertEnd]) a = true).
      now rewrite Hend.
Qed.

Lemma length_append (s t : string) :
  String.length (s ++ t) = String.length s + String.length t.
Proof.
  induction s as [|c s IH]; simpl; [reflexivity | now rewrite IH].
Qed.

Lemma permissionSchema_code_regex (code : string) :
  permissionSchema_code code = test permission_code_regex code.
Proof.
  unfold permissionSchema_code.
  destruct (test permission_code_regex code) eqn:E; [|apply andb_false_r].
  apply permission_code_regex_shape in E as (r & a & -> & Hr & Ha & _ & _).
  rewrite andb_true_r. apply Nat.leb_le.
  rewrite length_append. simpl.
  destruct r; [congruence|]. destruct a; [congruence|]. simpl. lia.
Qed.

End SchemaMatching.

Lemma permissionSchema_code_no_terminator (code : string) :
  permissionSchema_code code = true -> has_line_terminator code = false.
Proof.
  rewrite SchemaMatching.permissionSchema_code_regex.
  intros H.
  apply SchemaMatching.permission_code_regex_shape
    in H as (r & a & -> & _ & _ & Hr & Ha).
  apply SchemaMatching.class_string_plain in Hr as [_ Hr].
  apply SchemaMatching.class_string_plain in Ha as [_ Ha].
  rewrite !has_line_terminator_app, Hr, Ha. reflexivity.
Qed.

(** The codes [permissionSchema] accepts are the strings made of a non-empty
    resource and a non-empty action of lowercase letters and underscores
    around one colon; the check of the minimal length 3 rejects nothing the
    regex accepts. *)
Theorem permissionSchema_code_shape (code : string) :
  (permissionSchema_code code = true <->
   exists r a,
     code = r ++ ":" ++ a /\ r <> "" /\ a <> "" /\
     all_characters (SchemaRegExp.atom_matches lowercase_or_underscore) r = true /\
     all_characters (SchemaRegExp.atom_matches lowercase_or_underscore) a = true) /\
  permissionSchema_code code = SchemaRegExp.test permission_code_regex code.
Proof.
  split; [|apply SchemaMatching.permissionSchema_code_regex].
  rewrite SchemaMatching.permissionSchema_code_regex.
  apply SchemaMatching.permission_code_regex_shape.
Qed.

(** A code [permissionSchema] accepts has the canonical shape of the data
    model, and [parsePermission] parses it into a non-empty resource and a
    non-empty action. *)
Theorem permissionSchema_code_parses (code : string) :
  permissionSchema_code code = true ->
  two_nonempty_segments code /\
  exists p,
    parsePermission code = Some p /\
    code = resource p ++ ":" ++ action p /\
    resource p <> "" /\ action p <> "".
Proof.
  rewrite SchemaMatching.permissionSchema_code_regex. intros H.
  apply SchemaMatching.permission_code_regex_shape
    in H as (r & a & -> & Hrne & Hane & Hr & Ha).
  apply SchemaMatching.class_string_plain in Hr as [Hr _].
  apply SchemaMatching.class_string_plain in Ha as [Ha _].
  split.
  - now exists r, a.
  - exists {| resource := r; action := a |}.
    split; [now apply parsePermission_joined | now repeat split].
Qed.

Lemma permissionSchema_code_parses_witness :
  permissionSchema_code "users:create" = true /\
  two_nonempty_segments "users:create" /\
  exists p,
    parsePermission "users:create" = Some p /\
    "users:create" = resource p ++ ":" ++ action p /\
    resource p <> "" /\ action p <> "".
Proof.
  split; [reflexivity|].
  apply (@permissionSchema_code_parses "users:create"). reflexivity.
Defined.

(** On held codes that [permissionSchema] accepts, the wildcard over a
    category and the selection of the category agree: for a category without
    character of regex significance and without line terminator,
    [hasPermissionPattern] on the category followed by [":*"] is true exactly
    when [getPermissionsByCategory] selects something. *)
Theorem hasPermissionPattern_category_validated
    (held : list string) (category : string) :
  forallb permissionSchema_code held = true ->
  no_syntax_character category = true ->
  has_line_terminator category = false ->
  hasPermissionPattern ECMAScript.engine held (category ++ ":*")
  = Some (match getPermissionsByCategory held category with
          | [] => false
          | _ :: _ => true
          end).
Proof.
  intros Hvalid Hplain Hlt.
  rewrite category_wildcard_selected by assumption. f_equal.
  assert (Hsel : forall code, In code (getPermissionsByCategory held category) ->
                              has_line_terminator code = false).
  { intros code Hin. unfold getPermissionsByCategory, JS.filter in Hin.
    apply filter_In in Hin as [Hin _].
    apply permissionSchema_code_no_terminator.
    rewrite forallb_forall in Hvalid. now apply Hvalid. }
  destruct (getPermissionsByCategory held category) as [|code selected];
    [reflexivity|].
  simpl. rewrite (Hsel code) by now left. reflexivity.
Qed.

Lemma hasPermissionPattern_category_validated_witness :
  forallb permissionSchema_code ["roles:edit"; "users:view"] = true /\
  no_syntax_character "users" = true /\
  has_line_terminator "users" = false /\
  hasPermissionPattern ECMAScript.engine ["roles:edit"; "users:view"] ("users" ++ ":*")
  = Some true.
Proof.
  split; [reflexivity|]. split; [reflexivity|]. split; [reflexivity|].
  apply (@hasPermissionPattern_category_validated
           ["roles:edit"; "users:view"] "users"); reflexivity.
Defined.
